(** * Scan & Pick backend (index.js): a shallow embedding and its properties

    The program is a single Express module that turns three REST routes into
    GraphQL calls against the Shopify Admin API.  The embedding has three
    layers:

    - the fragment of the JavaScript runtime the module relies on:
      JSON-like values, binary64 numbers, the conversions [ToBoolean],
      [ToString], [ToNumber], the operators [||], [??], [?.], [+],
      [Math.min], [String.prototype.startsWith] and [Array.prototype.join];
    - the effect layer: a program is a tree of [axios.post] and
      [console.error] events, with exceptions as a result type;
    - the application: [toGid], [shopifyGraphQL], [buildDraftQuery] and the
      handlers of the data routes, written after the source line by line.

    The static index page, the CORS middleware and [app.listen] take no part
    in what is stated here and are left out. *)

From Stdlib Require Import ZArith List String Ascii Bool Lia.
From Stdlib Require Import DecimalString.
From Stdlib Require Import Floats.SpecFloat.
Import ListNotations.

Local Open Scope string_scope.
Local Open Scope Z_scope.

Set Warnings "-register-all".

(* ===================================================================== *)
(** * The JavaScript runtime fragment *)
(* ===================================================================== *)

(** ** Numbers

    A JavaScript Number is an IEEE 754 binary64 value.  It is represented by
    [spec_float] at precision 53 and maximal exponent 1024, in the canonical
    form the rounding functions of [SpecFloat] produce. *)

Definition number : Type := spec_float.

Definition prec : Z := 53.
Definition emax : Z := 1024.

Definition NaN : number := S754_nan.
Definition pos_zero : number := S754_zero false.
Definition neg_zero : number := S754_zero true.
Definition Infinity : number := S754_infinity false.

(** The Number nearest to an integer (round to nearest, ties to even). *)
Definition of_Z (z : Z) : number := binary_normalize prec emax z 0 false.

Definition num_add (x y : number) : number := SFadd prec emax x y.

Definition is_nan (x : number) : bool :=
  match x with S754_nan => true | _ => false end.

Definition is_zero (x : number) : bool :=
  match x with S754_zero _ => true | _ => false end.

(** A finite Number: neither NaN nor an infinity. *)
Definition is_finite (x : number) : bool :=
  match x with S754_zero _ | S754_finite _ _ _ => true | _ => false end.

Definition num_eqb (x y : number) : bool :=
  match x, y with
  | S754_zero a, S754_zero b => Bool.eqb a b
  | S754_infinity a, S754_infinity b => Bool.eqb a b
  | S754_nan, S754_nan => true
  | S754_finite a m e, S754_finite b m' e' =>
      Bool.eqb a b && Pos.eqb m m' && Z.eqb e e'
  | _, _ => false
  end.


(** [Math.min(x, y)]: NaN if an operand is NaN, otherwise the smaller
    operand, where -0 counts as smaller than +0. *)
Definition Math_min (x y : number) : number :=
  match SFcompare x y with
  | None => NaN
  | Some Lt => x
  | Some Gt => y
  | Some Eq => match x with S754_zero true => x | _ => y end
  end.

(** *** Decimal to binary

    [of_decimal neg m e10] is the Number nearest to [(-1)^neg * m * 10^e10]. *)

Definition pow10 (n : Z) : positive := Z.to_pos (10 ^ n).

Definition of_decimal (neg : bool) (m : positive) (e10 : Z) : number :=
  if 0 <=? e10
  then binary_round prec emax neg (m * pow10 e10) 0
  else SFdiv prec emax (S754_finite neg m 0)
                       (S754_finite false (pow10 (- e10)) 0).

(** ** Strings

    A JavaScript string is represented by its UTF-8 bytes.  Concatenation,
    [startsWith] with an ASCII argument and [join] act on the bytes as they
    act on the UTF-16 code units. *)

Definition code (c : ascii) : N := N_of_ascii c.

Fixpoint startsWith (s p : string) : bool :=
  match p with
  | EmptyString => true
  | String c p' =>
      match s with
      | EmptyString => false
      | String d s' => Ascii.eqb c d && startsWith s' p'
      end
  end.

(** [parts.push(x)] on an array of strings: the array afterwards. *)
Definition push (parts : list string) (x : string) : list string :=
  (parts ++ [x])%list.

(** [parts.join(sep)] on an array of strings. *)
Fixpoint join (sep : string) (parts : list string) : string :=
  match parts with
  | [] => ""
  | [p] => p
  | p :: rest => p ++ sep ++ join sep rest
  end.

(** Number of UTF-16 code units of a string given by its UTF-8 bytes: one
    per code point, two for a code point outside the basic plane. *)
Fixpoint utf16_length (s : string) : Z :=
  match s with
  | EmptyString => 0
  | String c r =>
      let b := code c in
      (if (b <? 128)%N then 1
       else if (b <? 192)%N then 0
       else if (b <? 240)%N then 1
       else 2) + utf16_length r
  end.

(** *** StringToNumber

    White space and line terminators of the StrWhiteSpace production, as
    UTF-8 byte sequences: TAB, LF, VT, FF, CR, SP, U+00A0, U+1680,
    U+2000..U+200A, U+2028, U+2029, U+202F, U+205F, U+3000 and U+FEFF. *)

Definition is_ws1 (c : ascii) : bool :=
  match code c with
  | 9 | 10 | 11 | 12 | 13 | 32 => true
  | _ => false
  end%N.

Definition is_ws2 (c1 c2 : ascii) : bool :=
  ((code c1 =? 194) && (code c2 =? 160))%N.

Definition is_ws3 (c1 c2 c3 : ascii) : bool :=
  match code c1, code c2 with
  | 225, 154 => (code c3 =? 128)%N
  | 226, 128 =>
      ((128 <=? code c3) && (code c3 <=? 138)
       || (code c3 =? 168) || (code c3 =? 169) || (code c3 =? 175))%N
  | 226, 129 => (code c3 =? 159)%N
  | 227, 128 => (code c3 =? 128)%N
  | 239, 187 => (code c3 =? 191)%N
  | _, _ => false
  end%N.

Fixpoint skip_ws (s : string) : string :=
  match s with
  | EmptyString => s
  | String c1 r1 =>
      if is_ws1 c1 then skip_ws r1
      else match r1 with
           | EmptyString => s
           | String c2 r2 =>
               if is_ws2 c1 c2 then skip_ws r2
               else match r2 with
                    | EmptyString => s
                    | String c3 r3 =>
                        if is_ws3 c1 c2 c3 then skip_ws r3 else s
                    end
           end
  end.

Definition digit_val (base : N) (c : ascii) : option N :=
  let b := code c in
  let v := if ((48 <=? b) && (b <=? 57))%N then Some (b - 48)%N
           else if ((97 <=? b) && (b <=? 122))%N then Some (b - 87)%N
           else if ((65 <=? b) && (b <=? 90))%N then Some (b - 55)%N
           else None in
  match v with
  | Some d => if (d <? base)%N then Some d else None
  | None => None
  end.

(** Reads the longest run of digits in [base]: the value accumulated onto
    [acc], the number of digits read, and the rest of the string. *)
Fixpoint read_digits (base : N) (s : string) (acc : N) (cnt : Z)
  : N * Z * string :=
  match s with
  | EmptyString => (acc, cnt, s)
  | String c r =>
      match digit_val base c with
      | Some d => read_digits base r (acc * base + d)%N (cnt + 1)
      | None => (acc, cnt, s)
      end
  end.

(** The ExponentPart at the head of the string: its value and the rest of
    the string, exponent 0 when there is no exponent indicator, [None] when
    the indicator is not followed by a SignedInteger. *)
Definition read_exponent (s : string) : option (Z * string) :=
  match s with
  | String c r =>
      if ((code c =? 101) || (code c =? 69))%N then
        let '(neg, r') :=
          match r with
          | String d r'' =>
              if (code d =? 45)%N then (true, r'')
              else if (code d =? 43)%N then (false, r'')
              else (false, r)
          | EmptyString => (false, r)
          end in
        let '(v, cnt, rest) := read_digits 10 r' 0%N 0 in
        if cnt =? 0 then None
        else Some (if neg then - Z.of_N v else Z.of_N v, rest)
      else Some (0, s)
  | EmptyString => Some (0, s)
  end.

Definition signed (neg : bool) (x : number) : number :=
  if neg then SFopp x else x.

(** StrUnsignedDecimalLiteral with the sign already read. *)
Definition read_unsigned_decimal (neg : bool) (s : string)
  : option (number * string) :=
  if startsWith s "Infinity"
  then Some (signed neg Infinity, substring 8 (String.length s - 8) s)
  else
    let '(ip, ni, r1) := read_digits 10 s 0%N 0 in
    let '(m, nf, r2) :=
      match r1 with
      | String c r =>
          if (code c =? 46)%N
          then read_digits 10 r ip 0
          else (ip, 0, r1)
      | EmptyString => (ip, 0, r1)
      end in
    if (ni =? 0) && (nf =? 0) then None
    else match read_exponent r2 with
         | None => None
         | Some (e, rest) =>
             Some (match m with
                   | N0 => S754_zero neg
                   | Npos p => of_decimal neg p (e - nf)
                   end, rest)
         end.

(** NonDecimalIntegerLiteral: [0x], [0o] or [0b] and at least one digit. *)
Definition read_non_decimal (s : string) : option (number * string) :=
  match s with
  | String c0 (String c1 r) =>
      if (code c0 =? 48)%N then
        let base :=
          match code c1 with
          | 120 | 88 => Some 16
          | 111 | 79 => Some 8
          | 98 | 66 => Some 2
          | _ => None
          end%N in
        match base with
        | Some b =>
            let '(v, cnt, rest) := read_digits b r 0%N 0 in
            if cnt =? 0 then None else Some (of_Z (Z.of_N v), rest)
        | None => None
        end
      else None
  | _ => None
  end.

Definition read_numeric_literal (s : string) : option (number * string) :=
  match read_non_decimal s with
  | Some r => Some r
  | None =>
      match s with
      | String c r =>
          if (code c =? 45)%N then read_unsigned_decimal true r
          else if (code c =? 43)%N then read_unsigned_decimal false r
          else read_unsigned_decimal false s
      | EmptyString => None
      end
  end.

(** [StringToNumber(s)]: +0 for an empty or blank string, the value of the
    StrNumericLiteral when the trimmed string is one, NaN otherwise. *)
Definition StringToNumber (s : string) : number :=
  match skip_ws s with
  | EmptyString => pos_zero
  | t =>
      match read_numeric_literal t with
      | Some (x, rest) =>
          match skip_ws rest with
          | EmptyString => x
          | _ => NaN
          end
      | None => NaN
      end
  end.

(** *** Number::toString

    The digits of a finite positive Number [x = m * 2^e] are those of the
    shortest decimal [c * 10^j] that rounds to [x], the nearest to [x] when
    there are several of that length (the lower one on a tie at an even
    digit). *)

Definition decimal_digits (z : Z) : string :=
  NilZero.string_of_uint (N.to_uint (Z.to_N z)).

Definition ndigits10 (z : Z) : Z := Z.of_nat (String.length (decimal_digits z)).

(** [x = num / den] for a finite positive Number. *)
Definition ratio_of (m : positive) (e : Z) : Z * Z :=
  if 0 <=? e then (Z.pos m * 2 ^ e, 1) else (Z.pos m, 2 ^ (- e)).

(** The least [t >= 1] with [num * 10^t >= den], for [num < den]. *)
Fixpoint scale_up (fuel : nat) (num den t : Z) : Z :=
  match fuel with
  | O => t
  | S fuel' =>
      if den <=? num * 10 ^ t then t else scale_up fuel' num den (t + 1)
  end.

(** The [n] with [10^(n-1) <= num/den < 10^n]. *)
Definition decimal_exponent (num den : Z) : Z :=
  if den <=? num then ndigits10 (num / den)
  else 1 - scale_up 400 num den 1.

Definition rounds_to (c j : Z) (x : number) : bool :=
  match c with
  | Z.pos p => num_eqb (of_decimal false p j) x
  | _ => false
  end.

Fixpoint shortest (fuel : nat) (x : number) (num den n k : Z) : Z * Z :=
  let j := n - k in
  let a := if 0 <=? j then num else num * 10 ^ (- j) in
  let b := if 0 <=? j then den * 10 ^ j else den in
  let lo := a / b in
  let r := a mod b in
  let hi := lo + 1 in
  match fuel with
  | O => (lo, j)
  | S fuel' =>
      if r =? 0 then (lo, j)
      else
        match rounds_to lo j x, rounds_to hi j x with
        | true, true =>
            if r <? b - r then (lo, j)
            else if b - r <? r then (hi, j)
            else if Z.even lo then (lo, j) else (hi, j)
        | true, false => (lo, j)
        | false, true => (hi, j)
        | false, false => shortest fuel' x num den n (k + 1)
        end
  end.

Fixpoint strip_zeros (fuel : nat) (c j : Z) : Z * Z :=
  match fuel with
  | O => (c, j)
  | S fuel' =>
      if (c mod 10 =? 0) && negb (c =? 0)
      then strip_zeros fuel' (c / 10) (j + 1)
      else (c, j)
  end.

Fixpoint zeros (n : nat) : string :=
  match n with O => "" | S n' => "0" ++ zeros n' end.

(** The output format of Number::toString for the digits [ds] of [s] and the
    exponent [n]: [s * 10^(n - k)] with [k] the length of [ds]. *)
Definition format_decimal (ds : string) (n : Z) : string :=
  let k := Z.of_nat (String.length ds) in
  if (-5 <=? n) && (n <=? 21) then
    if k <=? n then ds ++ zeros (Z.to_nat (n - k))
    else if 0 <? n then
      substring 0 (Z.to_nat n) ds ++ "." ++
      substring (Z.to_nat n) (Z.to_nat (k - n)) ds
    else "0." ++ zeros (Z.to_nat (- n)) ++ ds
  else
    let e := n - 1 in
    let es := (if e <? 0 then "-" else "+") ++ decimal_digits (Z.abs e) in
    if k =? 1 then ds ++ "e" ++ es
    else substring 0 1 ds ++ "." ++ substring 1 (Z.to_nat (k - 1)) ds
         ++ "e" ++ es.

Definition NumberToString (x : number) : string :=
  match x with
  | S754_nan => "NaN"
  | S754_zero _ => "0"
  | S754_infinity s => if s then "-Infinity" else "Infinity"
  | S754_finite s m e =>
      let '(num, den) := ratio_of m e in
      let n := decimal_exponent num den in
      let '(c, j) := shortest 17 (S754_finite false m e) num den n 1 in
      let '(c, j) := strip_zeros 400 c j in
      let ds := decimal_digits c in
      (if s then "-" else "") ++
      format_decimal ds (Z.of_nat (String.length ds) + j)
  end.

(** ** Values

    The values the module handles are the ones JSON and the query-string
    parser produce, and [undefined].  An object is the list of its own
    properties in insertion order, each key once. *)

Inductive JsVal : Type :=
| JUndefined
| JNull
| JBool (b : bool)
| JNum (x : number)
| JStr (s : string)
| JArr (elems : list JsVal)
| JObj (fields : list (string * JsVal)).

Fixpoint lookup (k : string) (fields : list (string * JsVal)) : option JsVal :=
  match fields with
  | [] => None
  | (k', v) :: rest => if String.eqb k k' then Some v else lookup k rest
  end.

Definition nullish (v : JsVal) : bool :=
  match v with JUndefined | JNull => true | _ => false end.

Definition ToBoolean (v : JsVal) : bool :=
  match v with
  | JUndefined | JNull => false
  | JBool b => b
  | JNum x => negb (is_zero x || is_nan x)
  | JStr s => negb (String.eqb s "")
  | JArr _ | JObj _ => true
  end.

(** [String(v)] and the conversion of a template-literal substitution: an
    array is its elements joined by commas, with [null] and [undefined]
    elements empty; a plain object is ["[object Object]"]. *)
Fixpoint ToString (v : JsVal) : string :=
  match v with
  | JUndefined => "undefined"
  | JNull => "null"
  | JBool b => if b then "true" else "false"
  | JNum x => NumberToString x
  | JStr s => s
  | JArr elems =>
      (fix joined (l : list JsVal) : string :=
         match l with
         | [] => ""
         | x :: rest =>
             (if nullish x then "" else ToString x) ++
             match rest with
             | [] => ""
             | _ => "," ++ joined rest
             end
         end) elems
  | JObj _ => "[object Object]"
  end.

(** [ToPrimitive]: arrays and plain objects have no primitive [valueOf], so
    they convert through [toString] whatever the hint. *)
Definition ToPrimitive (v : JsVal) : JsVal :=
  match v with
  | JArr _ | JObj _ => JStr (ToString v)
  | _ => v
  end.

(** [Number(v)]. *)
Definition ToNumber (v : JsVal) : number :=
  match ToPrimitive v with
  | JUndefined => NaN
  | JNull => pos_zero
  | JBool b => if b then of_Z 1 else pos_zero
  | JNum x => x
  | JStr s => StringToNumber s
  | JArr _ | JObj _ => NaN
  end.

(** [a || b] and [a ?? b] (the right operands in the source have no
    effects). *)
Definition js_or (a b : JsVal) : JsVal := if ToBoolean a then a else b.
Definition js_coalesce (a b : JsVal) : JsVal := if nullish a then b else a.

(** [a + b]: concatenation when a primitive operand is a string, addition of
    Numbers otherwise. *)
Definition js_add (a b : JsVal) : JsVal :=
  let pa := ToPrimitive a in
  let pb := ToPrimitive b in
  match pa, pb with
  | JStr _, _ | _, JStr _ => JStr (ToString pa ++ ToString pb)
  | _, _ => JNum (num_add (ToNumber pa) (ToNumber pb))
  end.

(** ** Exceptions

    A thrown value is an Error object; the module reads its [message] and
    its [response], which only the errors of axios for an HTTP status outside
    2xx carry: the status and the parsed body of the reply. *)

Record AxiosResponse : Type := mkResponse {
  res_status : Z;
  res_data : JsVal
}.

Record Exn : Type := mkExn {
  exn_name : string;
  exn_message : string;
  exn_response : option AxiosResponse
}.

Definition TypeError (msg : string) : Exn := mkExn "TypeError" msg None.
Definition Error (msg : string) : Exn := mkExn "Error" msg None.

Inductive Result (A : Type) : Type :=
| Ok (a : A)
| Throw (e : Exn).
Arguments Ok {A} a.
Arguments Throw {A} e.

Definition rbind {A B} (r : Result A) (f : A -> Result B) : Result B :=
  match r with
  | Ok a => f a
  | Throw e => Throw e
  end.

(** ** Property access

    [prop v k] is [v.k] for a value that is neither [null] nor [undefined]
    and a property name [k] of the source.  Besides own properties the only
    data property these names reach is [length] of arrays and strings; the
    inherited methods are functions and are modelled where they are called
    ([array_map], [array_reduce]). *)
Definition prop (v : JsVal) (k : string) : JsVal :=
  match v with
  | JObj fields =>
      match lookup k fields with Some x => x | None => JUndefined end
  | JArr elems =>
      if String.eqb k "length" then JNum (of_Z (Z.of_nat (List.length elems)))
      else JUndefined
  | JStr s =>
      if String.eqb k "length" then JNum (of_Z (utf16_length s))
      else JUndefined
  | _ => JUndefined
  end.

(** [v.k]: a TypeError on [null] and [undefined]. *)
Definition get (v : JsVal) (k : string) : Result JsVal :=
  if nullish v
  then Throw (TypeError ("Cannot read properties of " ++ ToString v ++
                         " (reading '" ++ k ++ "')"))
  else Ok (prop v k).

(** The binding of [k] in a destructuring pattern [{ k }] matched against
    [v]. *)
Definition destructure (v : JsVal) (k : string) : Result JsVal :=
  if nullish v
  then Throw (TypeError ("Cannot destructure property '" ++ k ++ "' of '" ++
                         ToString v ++ "' as it is " ++ ToString v ++ "."))
  else Ok (prop v k).

(** [v?.k]. *)
Definition opt_get (v : JsVal) (k : string) : JsVal :=
  if nullish v then JUndefined else prop v k.

Fixpoint mapM {A B} (f : A -> Result B) (l : list A) : Result (list B) :=
  match l with
  | [] => Ok []
  | x :: rest =>
      rbind (f x) (fun y => rbind (mapM f rest) (fun ys => Ok (y :: ys)))
  end.

(** [v.map(f)]: only arrays have a [map] method. *)
Definition array_map (f : JsVal -> Result JsVal) (v : JsVal) : Result JsVal :=
  match v with
  | JArr elems => rbind (mapM f elems) (fun ys => Ok (JArr ys))
  | _ => rbind (get v "map")
           (fun _ => Throw (TypeError "map is not a function"))
  end.

(** [v.reduce(f, init)] for a callback that does not throw. *)
Definition array_reduce (f : JsVal -> JsVal -> JsVal) (init : JsVal)
    (v : JsVal) : Result JsVal :=
  match v with
  | JArr elems => Ok (fold_left f elems init)
  | _ => rbind (get v "reduce")
           (fun _ => Throw (TypeError "reduce is not a function"))
  end.

(** [v?.reduce(f, init)]. *)
Definition opt_array_reduce (f : JsVal -> JsVal -> JsVal) (init : JsVal)
    (v : JsVal) : Result JsVal :=
  if nullish v then Ok JUndefined else array_reduce f init v.

(** [Number(v)], [String(v)] and [Math.min(a, b)] as values. *)
Definition Number (v : JsVal) : JsVal := JNum (ToNumber v).
Definition String_ (v : JsVal) : JsVal := JStr (ToString v).
Definition Math_min_ (a b : JsVal) : JsVal :=
  JNum (Math_min (ToNumber a) (ToNumber b)).

(** A numeric literal of the source. *)
Definition lit (z : Z) : JsVal := JNum (of_Z z).

(* ===================================================================== *)
(** * Effects: upstream calls and the console *)
(* ===================================================================== *)

(** The arguments of [axios.post(url, body, { headers, timeout })]. *)
Record PostRequest : Type := mkPost {
  post_url : string;
  post_body : JsVal;
  post_headers : list (string * JsVal);
  post_timeout : Z
}.

(** How the promise of [axios.post] settles: fulfilled with a response of
    status 2xx, or rejected (no connection, the timeout, a status outside
    2xx, in which case the error carries the response). *)
Inductive AxiosOutcome : Type :=
| Fulfilled (res : AxiosResponse)
| Rejected (err : Exn).

(** An argument of [console.error]; [LJson v] is the text
    [JSON.stringify(v, null, 2)]. *)
Inductive LogArg : Type :=
| LStr (s : string)
| LVal (v : JsVal)
| LJson (v : JsVal).

(** A computation that awaits upstream calls and writes to the console. *)
Inductive Prog (A : Type) : Type :=
| Ret (a : A)
| AxiosPost (r : PostRequest) (k : AxiosOutcome -> Prog A)
| ConsoleError (args : list LogArg) (k : Prog A).
Arguments Ret {A} a.
Arguments AxiosPost {A} r k.
Arguments ConsoleError {A} args k.

Fixpoint pbind {A B} (p : Prog A) (f : A -> Prog B) : Prog B :=
  match p with
  | Ret a => f a
  | AxiosPost r k => AxiosPost r (fun o => pbind (k o) f)
  | ConsoleError args k => ConsoleError args (pbind k f)
  end.

(** Computations that may throw: the body of an [async] function. *)
Definition M (A : Type) : Type := Prog (Result A).

Definition ret {A} (a : A) : M A := Ret (Ok a).
Definition throw {A} (e : Exn) : M A := Ret (Throw e).
Definition lift {A} (r : Result A) : M A := Ret r.

Definition bind {A B} (m : M A) (f : A -> M B) : M B :=
  pbind m (fun r => match r with Ok a => f a | Throw e => throw e end).

(** [try { m } catch (err) { h err }]. *)
Definition try_catch {A} (m : M A) (h : Exn -> M A) : M A :=
  pbind m (fun r => match r with Ok a => ret a | Throw e => h e end).

Definition axios_post (url : string) (body : JsVal)
    (headers : list (string * JsVal)) (timeout : Z) : M AxiosResponse :=
  AxiosPost (mkPost url body headers timeout)
    (fun o => match o with
              | Fulfilled res => ret res
              | Rejected err => throw err
              end).

Definition console_error (args : list LogArg) : M unit :=
  ConsoleError args (ret tt).

Declare Scope js_scope.
Delimit Scope js_scope with js.
Notation "x <- m ;; k" := (bind m (fun x => k))
  (at level 61, m at next level, right associativity) : js_scope.
Notation "m ;;; k" := (bind m (fun _ => k))
  (at level 61, right associativity) : js_scope.
Notation "x <~ r ;; k" := (rbind r (fun x => k))
  (at level 61, r at next level, right associativity) : js_scope.
Local Open Scope js_scope.

(** ** Running a computation against an upstream

    The upstream answers each request with an outcome; a run yields the
    result and the events in the order they happened. *)

Inductive Event : Type :=
| EvPost (r : PostRequest) (o : AxiosOutcome)
| EvLog (args : list LogArg).

Definition Upstream : Type := PostRequest -> AxiosOutcome.

Fixpoint run {A} (net : Upstream) (p : Prog A) : A * list Event :=
  match p with
  | Ret a => (a, [])
  | AxiosPost r k =>
      let o := net r in
      let '(a, t) := run net (k o) in (a, EvPost r o :: t)
  | ConsoleError args k =>
      let '(a, t) := run net k in (a, EvLog args :: t)
  end.

(** The upstream calls of a trace. *)
Fixpoint calls (t : list Event) : list (PostRequest * AxiosOutcome) :=
  match t with
  | [] => []
  | EvPost r o :: t' => (r, o) :: calls t'
  | EvLog _ :: t' => calls t'
  end.

(* ===================================================================== *)
(** * The application (index.js) *)
(* ===================================================================== *)

(** ** Requests and responses *)

(** The parts of an Express request the handlers read: [req.query],
    [req.params] and [req.body]. *)
Record Request : Type := mkRequest {
  req_query : JsVal;
  req_params : JsVal;
  req_body : JsVal
}.

(** What a handler sends: [res.status(c).json(v)], with status 200 when
    [res.json(v)] is called directly.  The body is the value handed to
    [res.json]. *)
Record Response : Type := mkRes {
  status : Z;
  body : JsVal
}.

Definition res_json (v : JsVal) : Response := mkRes 200 v.
Definition res_status_json (c : Z) (v : JsVal) : Response := mkRes c v.

(** ** GraphQL documents *)

Definition LIST_DRAFTS : string := "#graphql
  query ListDrafts($first: Int!, $query: String) {
    draftOrders(first: $first, query: $query, sortKey: UPDATED_AT, reverse: true) {
      edges {
        node {
          id
          createdAt
          updatedAt
          email
          shippingAddress { city province country zip }
          lineItems(first: 1) { edges { node { quantity } } }
        }
      }
    }
  }
".

Definition DRAFT_FOR_PICK : string := "#graphql
  query DraftForPick($id: ID!) {
    draftOrder(id: $id) {
      id
      lineItems(first: 250) {
        edges {
          node {
            id
            quantity
            variant {
              id
              sku
              barcode
              title
              image { originalSrc }
              product { title }
            }
          }
        }
      }
      shippingAddress { address1 city province country zip }
    }
  }
".

Definition COMPLETE_DRAFT : string := "#graphql
  mutation CompleteDraft($id: ID!, $paymentPending: Boolean) {
    draftOrderComplete(id: $id, paymentPending: $paymentPending) {
      order { id name }
      userErrors { field message }
    }
  }
".

(** ** Helpers *)

(** [toGid(type, idOrGid)]. *)
Definition toGid (type : string) (idOrGid : JsVal) : string :=
  let s := ToString idOrGid in
  if startsWith s "gid://" then s
  else "gid://shopify/" ++ type ++ "/" ++ s.

(** [buildDraftQuery({ since, until })]. *)
Definition buildDraftQuery (since until : JsVal) : string :=
  let parts : list string := [] in
  let parts :=
    if ToBoolean since
    then push parts ("created_at:>=" ++ ToString since) else parts in
  let parts :=
    if ToBoolean until
    then push parts ("created_at:<=" ++ ToString until) else parts in
  let parts := push parts "status:open" in
  join " " parts.

Section Server.

(** The environment read at start-up: [process.env.SHOPIFY_SHOP],
    [process.env.SHOPIFY_ADMIN_TOKEN] and [process.env.SHOPIFY_API_VERSION],
    each a string or [undefined]. *)
Variables SHOPIFY_SHOP SHOPIFY_ADMIN_TOKEN SHOPIFY_API_VERSION : JsVal.

Definition SHOP : JsVal := SHOPIFY_SHOP.
Definition TOKEN : JsVal := SHOPIFY_ADMIN_TOKEN.
Definition API_VERSION : JsVal := js_or SHOPIFY_API_VERSION (JStr "2025-07").
Definition GRAPHQL_URL : string :=
  "https://" ++ ToString SHOP ++ "/admin/api/" ++ ToString API_VERSION ++
  "/graphql.json".

(** [shopifyGraphQL(query, variables)]; every call in the module passes
    [variables], so its default [{}] is never used. *)
Definition shopifyGraphQL (query : string) (variables : JsVal) : M JsVal :=
  try_catch
    (res <- axios_post GRAPHQL_URL
              (JObj [("query", JStr query); ("variables", variables)])
              [("Content-Type", JStr "application/json");
               ("X-Shopify-Access-Token", TOKEN)]
              15000 ;;
     errors <- lift (get (res_data res) "errors") ;;
     if ToBoolean errors then
       console_error [LStr "Shopify top-level errors:"; LJson errors] ;;;
       throw (Error "GraphQL errors")
     else
       lift (get (res_data res) "data"))
    (fun err =>
       match exn_response err with
       | Some response =>
           console_error [LStr "HTTP"; LVal (lit (res_status response));
                          LJson (res_data response)]
       | None =>
           console_error [LStr "ERR"; LVal (JStr (exn_message err))]
       end ;;;
       throw err).

(** ** Routes *)

(** [GET /health]. *)
Definition health (_ : Request) : M Response :=
  ret (res_json (JObj [("ok", JBool true)])).

(** The callback of [reduce] in the listing: [(n, e) => n +
    (e?.node?.quantity || 0)]. *)
Definition add_quantity (n e : JsVal) : JsVal :=
  js_add n (js_or (opt_get (opt_get e "node") "quantity") (lit 0)).

(** The callback of [map] in the listing: [({ node }) => ({ ... })]. *)
Definition draft_summary (edge : JsVal) : Result JsVal :=
  node <~ destructure edge "node" ;;
  id <~ get node "id" ;;
  createdAt <~ get node "createdAt" ;;
  email <~ get node "email" ;;
  shipping <~ get node "shippingAddress" ;;
  lineItems <~ get node "lineItems" ;;
  total <~ opt_array_reduce add_quantity (lit 0) (opt_get lineItems "edges") ;;
  Ok (JObj [("id", id);
            ("createdAt", createdAt);
            ("email", email);
            ("shipping", shipping);
            ("totalLinesHint", js_or total (lit 0))]).

(** [GET /api/pick/drafts]. *)
Definition list_drafts (req : Request) : M Response :=
  try_catch
    (since <- lift (destructure (req_query req) "since") ;;
     until <- lift (destructure (req_query req) "until") ;;
     first <- lift (destructure (req_query req) "first") ;;
     let query := buildDraftQuery since until in
     data <- shopifyGraphQL LIST_DRAFTS
               (JObj [("first", Math_min_ (js_or (Number first) (lit 25))
                                          (lit 250));
                      ("query", JStr query)]) ;;
     items <- lift (array_map draft_summary
                      (js_or (opt_get (opt_get data "draftOrders") "edges")
                             (JArr []))) ;;
     ret (res_json (JObj [("items", items)])))
    (fun e =>
       ret (res_status_json 500
              (JObj [("error", JStr "failed to list drafts")]))).

(** The callback of [map] in the job: [({ node }) => ({ ... })]. *)
Definition pick_line (edge : JsVal) : Result JsVal :=
  node <~ destructure edge "node" ;;
  lineItemId <~ get node "id" ;;
  variant <~ get node "variant" ;;
  qty <~ get node "quantity" ;;
  Ok (JObj [("lineItemId", lineItemId);
            ("variantId", js_coalesce (opt_get variant "id") JNull);
            ("title", js_coalesce (opt_get (opt_get variant "product") "title")
                                  (JStr "Unknown"));
            ("sku", js_coalesce (opt_get variant "sku") JNull);
            ("barcode", js_coalesce (opt_get variant "barcode") JNull);
            ("qty", qty);
            ("thumb", js_coalesce
                        (opt_get (opt_get variant "image") "originalSrc")
                        JNull)]).

(** [GET /api/pick/jobs/:draftId], with the callback that builds a line as a
    parameter. *)
Definition get_job_with (line : JsVal -> Result JsVal) (req : Request)
  : M Response :=
  try_catch
    (raw <- lift (get (req_params req) "draftId") ;;
     let draftId := toGid "DraftOrder" raw in
     data <- shopifyGraphQL DRAFT_FOR_PICK (JObj [("id", JStr draftId)]) ;;
     let d := opt_get data "draftOrder" in
     if negb (ToBoolean d) then
       ret (res_status_json 404 (JObj [("error", JStr "Draft not found")]))
     else
       lineItems <- lift (get d "lineItems") ;;
       lines <- lift (array_map line
                        (js_or (opt_get lineItems "edges") (JArr []))) ;;
       id <- lift (get d "id") ;;
       shippingAddress <- lift (get d "shippingAddress") ;;
       ret (res_json (JObj [("draftId", id);
                            ("shippingAddress", shippingAddress);
                            ("lines", lines)])))
    (fun err =>
       ret (res_status_json 500
              (JObj [("error", JStr "Failed to fetch draft")]))).

Definition get_job : Request -> M Response := get_job_with pick_line.

(** [POST /api/pick/complete]. *)
Definition complete_draft (req : Request) : M Response :=
  try_catch
    (draftId <- lift (destructure (req_body req) "draftId") ;;
     given <- lift (destructure (req_body req) "paymentPending") ;;
     let paymentPending :=
       match given with JUndefined => JBool true | _ => given end in
     if negb (ToBoolean draftId) then
       ret (res_status_json 400 (JObj [("error", JStr "draftId required")]))
     else
       let id := toGid "DraftOrder" draftId in
       data <- shopifyGraphQL COMPLETE_DRAFT
                 (JObj [("id", JStr id); ("paymentPending", paymentPending)]) ;;
       let out := opt_get data "draftOrderComplete" in
       if ToBoolean (opt_get (opt_get out "userErrors") "length") then
         userErrors <- lift (get out "userErrors") ;;
         ret (res_status_json 400 (JObj [("errors", userErrors)]))
       else
         ret (res_json (JObj [("order", opt_get out "order")])))
    (fun err =>
       ret (res_status_json 500
              (JObj [("error", JStr "Failed to complete draft")]))).

End Server.

(** What [shopifyGraphQL] makes of the outcome of its call: the request it
    posts, its result, and what it writes to the console. *)
Definition graphql_request (env_shop env_token env_version : JsVal)
    (query : string) (variables : JsVal) : PostRequest :=
  mkPost (GRAPHQL_URL env_shop env_version)
         (JObj [("query", JStr query); ("variables", variables)])
         [("Content-Type", JStr "application/json");
          ("X-Shopify-Access-Token", TOKEN env_token)]
         15000.

Definition graphql_result (o : AxiosOutcome) : Result JsVal :=
  match o with
  | Rejected err => Throw err
  | Fulfilled res =>
      errors <~ get (res_data res) "errors" ;;
      if ToBoolean errors then Throw (Error "GraphQL errors")
      else get (res_data res) "data"
  end.

(* ===================================================================== *)
(** * Notions used in the statements *)
(* ===================================================================== *)

(** The response a run of a handler sends, and the events of the run. *)
Definition response_of {A} (net : Upstream) (p : Prog A) : A := fst (run net p).
Definition trace_of {A} (net : Upstream) (p : Prog A) : list Event :=
  snd (run net p).


(** The [data] payload of an upstream call that succeeds: the promise is
    fulfilled and the body has no truthy top-level [errors]. *)
Definition upstream_data (o : AxiosOutcome) : option JsVal :=
  match o with
  | Fulfilled res =>
      if nullish (res_data res) then None
      else if ToBoolean (prop (res_data res) "errors") then None
      else Some (prop (res_data res) "data")
  | Rejected _ => None
  end.

(** An upstream failure: the promise is rejected (transport failure), or it
    is fulfilled with a body whose top-level [errors] is a list. *)
Definition upstream_failure (o : AxiosOutcome) : bool :=
  match o with
  | Rejected _ => true
  | Fulfilled res =>
      match prop (res_data res) "errors" with
      | JArr _ => true
      | _ => false
      end
  end.

(** A query parameter is present when the parsed query string binds it. *)
Definition present (v : JsVal) : bool :=
  match v with JUndefined => false | _ => true end.

(** The filter of the listing as the specification words it: a term for each
    parameter that is present, then the status term, joined by spaces. *)
Definition spec_draft_query (since until : JsVal) : string :=
  let since_term := "created_at:>=" ++ ToString since in
  let until_term := "created_at:<=" ++ ToString until in
  join " "
    ((if present since then [since_term] else []) ++
     (if present until then [until_term] else []) ++
     ["status:open"])%list.

(** A Number that a JSON text denotes and that is not out of range: finite
    and in canonical form. *)
Definition json_number (x : number) : bool :=
  is_finite x && valid_binary prec emax x.



(** The [quantity] of a line-item edge [{ node: { quantity } }]. *)
Definition edge_quantity (e : JsVal) : option number :=
  match opt_get (opt_get e "node") "quantity" with
  | JNum x => if json_number x then Some x else None
  | _ => None
  end.

Fixpoint quantities (es : list JsVal) : option (list number) :=
  match es with
  | [] => Some []
  | e :: rest =>
      match edge_quantity e, quantities rest with
      | Some q, Some qs => Some (q :: qs)
      | _, _ => None
      end
  end.

(** The line-item edges returned for an order node; none when [lineItems]
    or its [edges] are null or absent. *)
Definition line_item_edges (node : JsVal) : option (list JsVal) :=
  match opt_get (opt_get node "lineItems") "edges" with
  | JUndefined | JNull => Some []
  | JArr es => Some es
  | _ => None
  end.



(** The three data routes, their handlers and their generic error texts. *)
Inductive Route : Type := Drafts | Job | Complete.

Definition handler (env_shop env_token env_version : JsVal) (r : Route)
  : Request -> M Response :=
  match r with
  | Drafts => list_drafts env_shop env_token env_version
  | Job => get_job env_shop env_token env_version
  | Complete => complete_draft env_shop env_token env_version
  end.

Definition generic_error (r : Route) : string :=
  match r with
  | Drafts => "failed to list drafts"
  | Job => "Failed to fetch draft"
  | Complete => "Failed to complete draft"
  end.

Definition error_500 (r : Route) : Response :=
  res_status_json 500 (JObj [("error", JStr (generic_error r))]).

(** ** Sample inputs

    A start-up environment, requests and upstreams on which the statements
    are exercised. *)

Definition sample_shop : JsVal := JStr "pick-demo.myshopify.com".
Definition sample_token : JsVal := JStr "shpat_0000".
Definition sample_version : JsVal := JUndefined.

Definition sample_handler : Route -> Request -> M Response :=
  handler sample_shop sample_token sample_version.

(** [GET /api/pick/drafts?...] with the given parsed query string. *)
Definition drafts_request (query : list (string * JsVal)) : Request :=
  mkRequest (JObj query) (JObj []) JUndefined.

(** [GET /api/pick/jobs/<draftId>]. *)
Definition job_request (draftId : string) : Request :=
  mkRequest (JObj []) (JObj [("draftId", JStr draftId)]) JUndefined.

(** [POST /api/pick/complete] with the given JSON body. *)
Definition complete_request (body : JsVal) : Request :=
  mkRequest (JObj []) (JObj []) body.

(** An upstream that answers every call with status 200 and
    [{ data: <data> }]. *)
Definition answering (data : JsVal) : Upstream :=
  fun _ => Fulfilled (mkResponse 200 (JObj [("data", data)])).

(** An upstream that times out. *)
Definition timing_out : Upstream :=
  fun _ => Rejected (mkExn "AxiosError" "timeout of 15000ms exceeded" None).

(** An upstream that answers 401 with a plain-text body. *)
Definition unauthorized : Upstream :=
  fun _ => Rejected
             (mkExn "AxiosError" "Request failed with status code 401"
                    (Some (mkResponse 401 (JStr "Unauthorized")))).

(** An upstream that answers 200 with top-level GraphQL errors. *)
Definition throttled : Upstream :=
  fun _ => Fulfilled
             (mkResponse 200
                (JObj [("errors",
                        JArr [JObj [("message", JStr "Throttled")]])])).

Definition sample_line (quantity : Z) : JsVal :=
  JObj [("node", JObj [("quantity", lit quantity)])].

Definition sample_order (id : string) (quantities : list Z) : JsVal :=
  JObj [("node",
         JObj [("id", JStr id);
               ("createdAt", JStr "2025-07-01T10:00:00Z");
               ("updatedAt", JStr "2025-07-02T08:30:00Z");
               ("email", JStr "buyer@example.com");
               ("shippingAddress", JNull);
               ("lineItems",
                JObj [("edges", JArr (map sample_line quantities))])])].

Definition sample_orders : list JsVal :=
  [sample_order "gid://shopify/DraftOrder/1" [3];
   sample_order "gid://shopify/DraftOrder/2" [];
   sample_order "gid://shopify/DraftOrder/3" [1; 2]].

Definition sample_listing : JsVal :=
  JObj [("draftOrders", JObj [("edges", JArr sample_orders)])].



(** ** Further notions

    Notions for the statements about the request a handler posts, its
    console output, the job it builds and the responses it can send. *)

(** The GraphQL document of a route. *)
Definition document (r : Route) : string :=
  match r with
  | Drafts => LIST_DRAFTS
  | Job => DRAFT_FOR_PICK
  | Complete => COMPLETE_DRAFT
  end.

(** The status codes a route sends. *)
Definition route_status (r : Route) (c : Z) : Prop :=
  match r with
  | Drafts => c = 200 \/ c = 500
  | Job => c = 200 \/ c = 404 \/ c = 500
  | Complete => c = 200 \/ c = 400 \/ c = 500
  end.

(** The lines written to the console during a trace. *)
Fixpoint logs (t : list Event) : list (list LogArg) :=
  match t with
  | [] => []
  | EvPost _ _ :: t' => logs t'
  | EvLog args :: t' => args :: logs t'
  end.

(** What [shopifyGraphQL] writes to the console for an outcome of its
    call. *)
Definition outcome_logs (o : AxiosOutcome) : list (list LogArg) :=
  match o with
  | Fulfilled res =>
      match get (res_data res) "errors" with
      | Ok errors =>
          if ToBoolean errors
          then [[LStr "Shopify top-level errors:"; LJson errors];
                [LStr "ERR"; LVal (JStr "GraphQL errors")]]
          else []
      | Throw e => [[LStr "ERR"; LVal (JStr (exn_message e))]]
      end
  | Rejected err =>
      match exn_response err with
      | Some response =>
          [[LStr "HTTP"; LVal (lit (res_status response));
            LJson (res_data response)]]
      | None => [[LStr "ERR"; LVal (JStr (exn_message err))]]
      end
  end.



(** The PickLine of a line-item edge [{ node: { id, quantity, variant } }]
    of the job query. *)
Definition PickLine (edge : JsVal) : JsVal :=
  let node := prop edge "node" in
  let variant := prop node "variant" in
  JObj [("lineItemId", prop node "id");
        ("variantId", js_coalesce (prop variant "id") JNull);
        ("title", js_coalesce (prop (prop variant "product") "title")
                              (JStr "Unknown"));
        ("sku", js_coalesce (prop variant "sku") JNull);
        ("barcode", js_coalesce (prop variant "barcode") JNull);
        ("qty", prop node "quantity");
        ("thumb", js_coalesce (prop (prop variant "image") "originalSrc")
                              JNull)].

(** The PickLine of an edge whose node has the id [id] and the quantity
    [qty] and no variant. *)
Definition bare_PickLine (id qty : JsVal) : JsVal :=
  JObj [("lineItemId", id); ("variantId", JNull); ("title", JStr "Unknown");
        ("sku", JNull); ("barcode", JNull); ("qty", qty); ("thumb", JNull)].

(** An edge that the [map] callbacks can read: neither the edge nor its
    [node] is null or absent. *)
Definition has_node (edge : JsVal) : bool :=
  negb (nullish edge) && negb (nullish (prop edge "node")).




(** ** Further sample inputs *)


(** An upstream that answers 200 with the JSON body [null]. *)
Definition answering_null : Upstream :=
  fun _ => Fulfilled (mkResponse 200 JNull).

Definition sample_variant : JsVal :=
  JObj [("id", JStr "gid://shopify/ProductVariant/9");
        ("sku", JStr "SKU-9");
        ("barcode", JNull);
        ("title", JStr "Large");
        ("image", JObj [("originalSrc", JStr "https://cdn.example/9.png")]);
        ("product", JObj [("title", JStr "Mug")])].

Definition sample_job_line (id : string) (quantity : Z) (variant : JsVal)
  : JsVal :=
  JObj [("node", JObj [("id", JStr id); ("quantity", lit quantity);
                       ("variant", variant)])].

Definition sample_job_edges : list JsVal :=
  [sample_job_line "gid://shopify/DraftOrderLineItem/1" 2 sample_variant;
   sample_job_line "gid://shopify/DraftOrderLineItem/2" 1 JNull].

Definition sample_job : JsVal :=
  JObj [("draftOrder",
         JObj [("id", JStr "gid://shopify/DraftOrder/7");
               ("lineItems", JObj [("edges", JArr sample_job_edges)]);
               ("shippingAddress", JObj [("city", JStr "Lyon")])])].

(** A job whose second line-item edge has no node. *)
Definition sample_broken_job : JsVal :=
  JObj [("draftOrder",
         JObj [("id", JStr "gid://shopify/DraftOrder/7");
               ("lineItems",
                JObj [("edges",
                       JArr [sample_job_line "gid://shopify/DraftOrderLineItem/1"
                               2 JNull;
                             JObj [("node", JNull)]])])])].

(** A listing whose only order edge has no node. *)
Definition sample_broken_listing : JsVal :=
  JObj [("draftOrders", JObj [("edges", JArr [JObj [("node", JNull)]])])].

(** A listing with one order whose line-item edges are a quantity 4, an edge
    without node and a quantity 1. *)
Definition sample_sparse_orders : list JsVal :=
  [JObj [("node",
          JObj [("id", JStr "gid://shopify/DraftOrder/4");
                ("lineItems",
                 JObj [("edges",
                        JArr [sample_line 4; JObj [("node", JNull)];
                              sample_line 1])])])]].

Definition sample_sparse_listing : JsVal :=
  JObj [("draftOrders", JObj [("edges", JArr sample_sparse_orders)])].


(* ===================================================================== *)
(** * Facts about binary64 rounding *)
(* ===================================================================== *)

Section Rounding.

Local Abbreviation emin := (SpecFloat.emin prec emax).
Local Abbreviation fexp := (SpecFloat.fexp prec emax).









End Rounding.

(* ===================================================================== *)
(** * Checks of the runtime fragment *)
(* ===================================================================== *)

Example StringToNumber_integers :
  StringToNumber "300" = of_Z 300 /\ StringToNumber " 12 " = of_Z 12 /\
  StringToNumber "-5" = of_Z (-5) /\ StringToNumber "0x10" = of_Z 16 /\
  StringToNumber "1e3" = of_Z 1000.
Proof. repeat split. Qed.

Example StringToNumber_blank_and_junk :
  StringToNumber "" = pos_zero /\ StringToNumber "   " = pos_zero /\
  StringToNumber "-0" = neg_zero /\ StringToNumber "many" = NaN /\
  StringToNumber "12px" = NaN /\ StringToNumber "1e" = NaN /\
  StringToNumber "Infinity" = Infinity.
Proof. repeat split. Qed.

Example StringToNumber_rounds :
  StringToNumber "0.1" = S754_finite false 7205759403792794 (-56) /\
  StringToNumber "9007199254740993" = of_Z 9007199254740992 /\
  StringToNumber "1e400" = Infinity /\
  StringToNumber "2e-324" = pos_zero.
Proof. repeat split. Qed.

Example ToString_numbers :
  ToString (lit 1042) = "1042" /\ ToString (lit (-7)) = "-7" /\
  ToString (JNum (StringToNumber "0.1")) = "0.1" /\
  ToString (JNum (StringToNumber "1e21")) = "1e+21" /\
  ToString (JNum (StringToNumber "123456789012345678901")) =
    "123456789012345680000" /\
  ToString (JNum (StringToNumber "0.0000001")) = "1e-7" /\
  ToString (JNum (StringToNumber "5e-324")) = "5e-324" /\
  ToString (JNum NaN) = "NaN" /\ ToString (JNum neg_zero) = "0".
Proof. vm_compute. repeat split. Qed.

Example ToString_structures :
  ToString (JArr [JStr "a"; JNull; lit 1; JArr [JStr "b"; JStr "c"]]) =
    "a,,1,b,c" /\
  ToString (JArr []) = "" /\ ToString (JObj []) = "[object Object]".
Proof. vm_compute. repeat split. Qed.

Example ToNumber_of_query_values :
  ToNumber JUndefined = NaN /\ ToNumber (JArr [JStr "50"]) = of_Z 50 /\
  ToNumber (JArr [JStr "1"; JStr "2"]) = NaN /\ ToNumber (JObj []) = NaN.
Proof. vm_compute. repeat split. Qed.

Example toGid_of_number : toGid "DraftOrder" (lit 1042) =
                          "gid://shopify/DraftOrder/1042".
Proof. vm_compute. reflexivity. Qed.

(* ===================================================================== *)
(** * Facts about runs *)
(* ===================================================================== *)

Section RunFacts.

Variable net : Upstream.

Lemma run_pbind {A B} (p : Prog A) (f : A -> Prog B) :
  run net (pbind p f) =
  (fst (run net (f (fst (run net p)))),
   (snd (run net p) ++ snd (run net (f (fst (run net p)))))%list).
Proof.
  induction p as [a|r k IH|args k IH]; simpl.
  - destruct (run net (f a)); reflexivity.
  - rewrite IH. destruct (run net (k (net r))); reflexivity.
  - rewrite IH. destruct (run net k); reflexivity.
Qed.

Lemma response_of_bind {A B} (m : M A) (f : A -> M B) :
  response_of net (bind m f) =
  match response_of net m with
  | Ok a => response_of net (f a)
  | Throw e => Throw e
  end.
Proof.
  unfold response_of, bind. rewrite run_pbind. simpl.
  destruct (fst (run net m)); reflexivity.
Qed.

Lemma trace_of_bind {A B} (m : M A) (f : A -> M B) :
  trace_of net (bind m f) =
  (trace_of net m ++
   match response_of net m with
   | Ok a => trace_of net (f a)
   | Throw e => []
   end)%list.
Proof.
  unfold trace_of, response_of, bind. rewrite run_pbind. simpl.
  destruct (fst (run net m)); reflexivity.
Qed.

Lemma response_of_try_catch {A} (m : M A) (h : Exn -> M A) :
  response_of net (try_catch m h) =
  match response_of net m with
  | Ok a => Ok a
  | Throw e => response_of net (h e)
  end.
Proof.
  unfold response_of, try_catch. rewrite run_pbind. simpl.
  destruct (fst (run net m)); reflexivity.
Qed.

Lemma trace_of_try_catch {A} (m : M A) (h : Exn -> M A) :
  trace_of net (try_catch m h) =
  (trace_of net m ++
   match response_of net m with
   | Ok a => []
   | Throw e => trace_of net (h e)
   end)%list.
Proof.
  unfold trace_of, response_of, try_catch. rewrite run_pbind. simpl.
  destruct (fst (run net m)); reflexivity.
Qed.

Lemma response_of_lift {A} (r : Result A) : response_of net (lift r) = r.
Proof. reflexivity. Qed.

Lemma trace_of_lift {A} (r : Result A) : trace_of net (lift r) = [].
Proof. reflexivity. Qed.

Lemma response_of_ret {A} (a : A) : response_of net (ret a) = Ok a.
Proof. reflexivity. Qed.

Lemma trace_of_ret {A} (a : A) : trace_of net (ret a) = [].
Proof. reflexivity. Qed.

Lemma calls_app (t1 t2 : list Event) :
  calls (t1 ++ t2) = (calls t1 ++ calls t2)%list.
Proof.
  induction t1 as [|[r o|args] t1 IH]; simpl; rewrite ?IH; reflexivity.
Qed.

(** [shopifyGraphQL] posts one request and returns what [graphql_result]
    makes of the outcome. *)
Lemma shopifyGraphQL_response (e1 e2 e3 : JsVal) (q : string) (v : JsVal) :
  response_of net (shopifyGraphQL e1 e2 e3 q v) =
  graphql_result (net (graphql_request e1 e2 e3 q v)).
Proof.
  unfold response_of, shopifyGraphQL, try_catch, bind, axios_post. simpl.
  fold (graphql_request e1 e2 e3 q v).
  destruct (net (graphql_request e1 e2 e3 q v)) as [res|err]; simpl.
  - destruct (get (res_data res) "errors") as [errors|e]; simpl.
    + destruct (ToBoolean errors); simpl; [reflexivity|].
      destruct (get (res_data res) "data") as [d|e]; simpl;
        [reflexivity | destruct (exn_response e); reflexivity].
    + destruct (exn_response e); reflexivity.
  - destruct (exn_response err); reflexivity.
Qed.

Lemma shopifyGraphQL_calls (e1 e2 e3 : JsVal) (q : string) (v : JsVal) :
  calls (trace_of net (shopifyGraphQL e1 e2 e3 q v)) =
  [(graphql_request e1 e2 e3 q v, net (graphql_request e1 e2 e3 q v))].
Proof.
  unfold trace_of, shopifyGraphQL, try_catch, bind, axios_post. simpl.
  fold (graphql_request e1 e2 e3 q v).
  destruct (net (graphql_request e1 e2 e3 q v)) as [res|err]; simpl.
  - destruct (get (res_data res) "errors") as [errors|e]; simpl.
    + destruct (ToBoolean errors); simpl; [reflexivity|].
      destruct (get (res_data res) "data") as [d|e]; simpl;
        [reflexivity | destruct (exn_response e); reflexivity].
    + destruct (exn_response e); reflexivity.
  - destruct (exn_response err); reflexivity.
Qed.

End RunFacts.

(** Pushes [response_of] and [trace_of] through the steps of a handler up
    to its upstream call. *)
Ltac run_steps :=
  repeat (rewrite ?response_of_try_catch, ?response_of_bind, ?trace_of_bind,
            ?response_of_lift, ?trace_of_lift, ?response_of_ret, ?trace_of_ret;
          cbv beta iota).

Lemma upstream_data_result (o : AxiosOutcome) (data : JsVal) :
  upstream_data o = Some data -> graphql_result o = Ok data.
Proof.
  destruct o as [res|err]; simpl; [|discriminate].
  unfold get. destruct (nullish (res_data res)); [discriminate|]. simpl.
  destruct (ToBoolean (prop (res_data res) "errors")); [discriminate|].
  intros H; injection H as <-. reflexivity.
Qed.

Lemma upstream_failure_result (o : AxiosOutcome) :
  upstream_failure o = true -> exists e, graphql_result o = Throw e.
Proof.
  destruct o as [res|err]; simpl; [|eauto].
  unfold get. destruct (nullish (res_data res)); simpl; [eauto|].
  destruct (prop (res_data res) "errors"); try discriminate.
  simpl. eauto.
Qed.

(* ===================================================================== *)
(** * Identifier normalization *)
(* ===================================================================== *)

Lemma toGid_qualified (type : string) (v : JsVal) :
  startsWith (toGid type v) "gid://" = true.
Proof.
  unfold toGid. destruct (startsWith (ToString v) "gid://") eqn:H.
  - exact H.
  - reflexivity.
Qed.

(** C2. An identifier string that starts with the global-id prefix [gid://]
    is returned unchanged; any other identifier string [raw] is returned as
    [gid://shopify/<type>/<raw>]. *)
Theorem toGid_normalizes (type s : string) :
  (startsWith s "gid://" = true -> toGid type (JStr s) = s) /\
  (startsWith s "gid://" = false ->
   toGid type (JStr s) = "gid://shopify/" ++ type ++ "/" ++ s).
Proof.
  unfold toGid. simpl ToString. split; intros ->; reflexivity.
Qed.

Lemma toGid_normalizes_witness :
  toGid "DraftOrder" (JStr "gid://shopify/DraftOrder/1042") =
    "gid://shopify/DraftOrder/1042" /\
  toGid "DraftOrder" (JStr "1042") = "gid://shopify/DraftOrder/1042".
Proof.
  split.
  - apply (proj1 (toGid_normalizes "DraftOrder" "gid://shopify/DraftOrder/1042")).
    reflexivity.
  - apply (proj2 (toGid_normalizes "DraftOrder" "1042")). reflexivity.
Defined.

(** C9. Normalization is idempotent, and the test for the qualified form
    looks at the [gid://] prefix only: an input with that prefix is returned
    unchanged whatever type it embeds and whatever type tag is requested. *)
Theorem toGid_idempotent (t : string) (v : JsVal) :
  toGid t (JStr (toGid t v)) = toGid t v /\
  (forall s, startsWith s "gid://" = true -> toGid t (JStr s) = s) /\
  (forall t' raw,
     toGid t (JStr ("gid://shopify/" ++ t' ++ "/" ++ raw)) =
     "gid://shopify/" ++ t' ++ "/" ++ raw).
Proof.
  split; [|split].
  - unfold toGid at 1. simpl ToString. rewrite toGid_qualified. reflexivity.
  - intros s Hs. unfold toGid. simpl ToString. rewrite Hs. reflexivity.
  - intros t' raw. reflexivity.
Qed.

Lemma toGid_idempotent_witness :
  toGid "DraftOrder" (JStr (toGid "DraftOrder" (JStr "77"))) =
    toGid "DraftOrder" (JStr "77") /\
  toGid "DraftOrder" (JStr "gid://shopify/Order/77") = "gid://shopify/Order/77".
Proof.
  split.
  - apply (proj1 (toGid_idempotent "DraftOrder" (JStr "77"))).
  - apply (proj1 (proj2 (toGid_idempotent "DraftOrder" JNull))). reflexivity.
Defined.

(* ===================================================================== *)
(** * The filter of the listing *)
(* ===================================================================== *)



(** The filter is the one the specification words whenever each parameter
    is absent or truthy. *)
Lemma buildDraftQuery_spec (since until : JsVal) :
  present since = ToBoolean since ->
  present until = ToBoolean until ->
  buildDraftQuery since until = spec_draft_query since until.
Proof.
  unfold buildDraftQuery, spec_draft_query, push. intros -> ->.
  destruct (ToBoolean since), (ToBoolean until); reflexivity.
Qed.

(* ===================================================================== *)
(** * The page size of the listing *)
(* ===================================================================== *)

Lemma of_Z_25 : of_Z 25 = S754_finite false 7036874417766400 (-48).
Proof. reflexivity. Qed.








Section Listing.

Variables (e1 e2 e3 : JsVal) (net : Upstream) (req : Request).
Hypothesis Hquery : nullish (req_query req) = false.


End Listing.





(* ===================================================================== *)
(** * The handlers and the outcome of the upstream call *)
(* ===================================================================== *)

Section Handlers.

Variables (e1 e2 e3 : JsVal) (net : Upstream) (req : Request).

(** The calls of a handler: none, or the single call of [shopifyGraphQL]. *)
Lemma handler_calls (route : Route) :
  calls (trace_of net (handler e1 e2 e3 route req)) = [] \/
  exists r, calls (trace_of net (handler e1 e2 e3 route req)) = [(r, net r)] /\
            response_of net (handler e1 e2 e3 route req) =
            match graphql_result (net r) with
            | Throw _ => Ok (error_500 route)
            | Ok _ => response_of net (handler e1 e2 e3 route req)
            end.
Proof.
  destruct route; simpl handler.
  - unfold list_drafts, destructure.
    destruct (nullish (req_query req)); [left; reflexivity|]. right.
    eexists. rewrite trace_of_try_catch. run_steps.
    rewrite !calls_app, shopifyGraphQL_calls, shopifyGraphQL_response.
    split.
    + simpl. destruct (graphql_result _); [|reflexivity].
      run_steps. rewrite calls_app. simpl.
      destruct (array_map _ _); reflexivity.
    + destruct (graphql_result _); reflexivity.
  - unfold get_job, get_job_with, get.
    destruct (nullish (req_params req)); [left; reflexivity|]. right.
    eexists. rewrite trace_of_try_catch. run_steps.
    rewrite !calls_app, shopifyGraphQL_calls, shopifyGraphQL_response.
    split.
    + simpl. destruct (graphql_result _) as [data|]; [|reflexivity].
      destruct (negb _); [reflexivity|]. run_steps.
      repeat match goal with
             | |- context [match ?r with Ok _ => _ | Throw _ => _ end] =>
                 destruct r; run_steps; simpl
             end; reflexivity.
    + destruct (graphql_result _); reflexivity.
  - unfold complete_draft, destructure.
    destruct (nullish (req_body req)); [left; reflexivity|].
    run_steps. rewrite trace_of_try_catch. run_steps.
    destruct (negb (ToBoolean (prop (req_body req) "draftId")));
      [left; reflexivity|]. right.
    eexists. run_steps.
    rewrite !calls_app, shopifyGraphQL_calls, shopifyGraphQL_response.
    split.
    + simpl. destruct (graphql_result _) as [data|]; [|reflexivity].
      destruct (ToBoolean _); run_steps; [|reflexivity].
      destruct (get _ _); reflexivity.
    + destruct (graphql_result _); reflexivity.
Qed.

End Handlers.

(** C5. When the upstream call of a data route fails, by a rejected promise
    or by a body with a top-level [errors] list, the handler answers 500
    with the fixed error text of the route, and it returns normally. *)
Theorem upstream_failure_gives_500 (e1 e2 e3 : JsVal) (route : Route)
    (net : Upstream) (req : Request) :
  (exists r o,
     In (r, o) (calls (trace_of net (handler e1 e2 e3 route req))) /\
     upstream_failure o = true) ->
  response_of net (handler e1 e2 e3 route req) =
  Ok (res_status_json 500 (JObj [("error", JStr (generic_error route))])).
Proof.
  intros (r & o & Hin & Hfail).
  destruct (handler_calls e1 e2 e3 net req route) as [H|(r' & Hc & Hr)].
  - rewrite H in Hin. contradiction.
  - rewrite Hc in Hin. destruct Hin as [Heq|[]]. injection Heq as Hreq Hout.
    subst r' o.
    destruct (upstream_failure_result _ Hfail) as [e He].
    rewrite Hr, He. reflexivity.
Qed.

Lemma upstream_failure_gives_500_witness :
  response_of timing_out (sample_handler Drafts (drafts_request [])) =
    Ok (res_status_json 500 (JObj [("error", JStr "failed to list drafts")])) /\
  response_of unauthorized (sample_handler Job (job_request "1042")) =
    Ok (res_status_json 500 (JObj [("error", JStr "Failed to fetch draft")])) /\
  response_of throttled
    (sample_handler Complete
       (complete_request (JObj [("draftId", JStr "1042")]))) =
    Ok (res_status_json 500
          (JObj [("error", JStr "Failed to complete draft")])).
Proof.
  split; [|split].
  - apply (upstream_failure_gives_500 sample_shop sample_token sample_version
             Drafts timing_out (drafts_request [])).
    eexists; eexists; split; [left; reflexivity | reflexivity].
  - apply (upstream_failure_gives_500 sample_shop sample_token sample_version
             Job unauthorized (job_request "1042")).
    eexists; eexists; split; [left; reflexivity | reflexivity].
  - apply (upstream_failure_gives_500 sample_shop sample_token sample_version
             Complete throttled
             (complete_request (JObj [("draftId", JStr "1042")]))).
    eexists; eexists; split; [left; reflexivity | reflexivity].
Defined.

(** Every handler returns normally: a throw inside it ends in its [catch]. *)
Lemma handler_returns (e1 e2 e3 : JsVal) (route : Route) (net : Upstream)
    (req : Request) :
  exists res, response_of net (handler e1 e2 e3 route req) = Ok res.
Proof.
  destruct route; simpl handler;
    unfold list_drafts, get_job, get_job_with, complete_draft;
    rewrite response_of_try_catch;
    match goal with
    | |- exists res, match ?r with Ok _ => _ | Throw _ => _ end = _ =>
        destruct r
    end; rewrite ?response_of_ret; eauto.
Qed.

(* ===================================================================== *)
(** * Completing a draft *)
(* ===================================================================== *)

Section Completion.

Variables (e1 e2 e3 : JsVal) (net : Upstream) (req : Request).

(** C7. A completion request whose body has no [draftId] is answered 400
    [{ error: 'draftId required' }], and the run makes no upstream call (it
    has no event at all). *)
Theorem complete_requires_draftId :
  nullish (req_body req) = false ->
  prop (req_body req) "draftId" = JUndefined ->
  run net (complete_draft e1 e2 e3 req) =
  (Ok (res_status_json 400 (JObj [("error", JStr "draftId required")])), []).
Proof.
  intros Hbody Hid. unfold complete_draft, destructure.
  rewrite Hbody, Hid. reflexivity.
Qed.


End Completion.

Lemma complete_requires_draftId_witness :
  run timing_out
    (complete_draft sample_shop sample_token sample_version
       (complete_request (JObj [("paymentPending", JBool false)]))) =
  (Ok (res_status_json 400 (JObj [("error", JStr "draftId required")])), []).
Proof.
  apply (complete_requires_draftId sample_shop sample_token sample_version
           timing_out
           (complete_request (JObj [("paymentPending", JBool false)])));
    reflexivity.
Defined.

Lemma opt_get_prop (v : JsVal) (k : string) : opt_get v k = prop v k.
Proof. destruct v; reflexivity. Qed.




Section CompletionErrors.

Variables (e1 e2 e3 : JsVal) (net : Upstream) (req : Request).


End CompletionErrors.


(* ===================================================================== *)
(** * Fetching a job *)
(* ===================================================================== *)

Section Job.

Variables (e1 e2 e3 : JsVal) (net : Upstream) (req : Request).

(** C8. When the upstream query returns no draft order ([draftOrder] null
    or absent in the data), the handler answers 404 with an error body.  The
    answer is the same whatever the callback that builds a line, so no line
    is built. *)
Theorem job_not_found (data : JsVal) :
  nullish (req_params req) = false ->
  (forall r, upstream_data (net r) = Some data) ->
  nullish (prop data "draftOrder") = true ->
  response_of net (get_job e1 e2 e3 req) =
    Ok (res_status_json 404 (JObj [("error", JStr "Draft not found")])) /\
  forall line,
    response_of net (get_job_with e1 e2 e3 line req) =
    response_of net (get_job e1 e2 e3 req).
Proof.
  intros Hparams Hnet Hnone.
  assert (H : forall line,
             response_of net (get_job_with e1 e2 e3 line req) =
             Ok (res_status_json 404 (JObj [("error", JStr "Draft not found")]))).
  { intros line. unfold get_job_with, get. rewrite Hparams. run_steps.
    rewrite shopifyGraphQL_response.
    rewrite (upstream_data_result _ _ (Hnet _)). cbv beta iota zeta.
    rewrite opt_get_prop.
    destruct (prop data "draftOrder"); try discriminate; reflexivity. }
  split; [apply H|]. intros line. unfold get_job. rewrite !H. reflexivity.
Qed.

End Job.

Lemma job_not_found_witness :
  response_of (answering (JObj [("draftOrder", JNull)]))
    (get_job sample_shop sample_token sample_version (job_request "404404")) =
    Ok (res_status_json 404 (JObj [("error", JStr "Draft not found")])) /\
  forall line,
    response_of (answering (JObj [("draftOrder", JNull)]))
      (get_job_with sample_shop sample_token sample_version line
         (job_request "404404")) =
    response_of (answering (JObj [("draftOrder", JNull)]))
      (get_job sample_shop sample_token sample_version (job_request "404404")).
Proof.
  apply (job_not_found sample_shop sample_token sample_version
           (answering (JObj [("draftOrder", JNull)])) (job_request "404404")
           (JObj [("draftOrder", JNull)]));
    intros; reflexivity.
Defined.

(* ===================================================================== *)
(** * The summaries of the listing *)
(* ===================================================================== *)









Section Summaries.

Variables (e1 e2 e3 : JsVal) (net : Upstream) (req : Request).


End Summaries.



(** The listing on the sample orders: three summaries with hints 3, 0 and
    3. *)
Example list_drafts_sample :
  response_of (answering sample_listing)
    (list_drafts sample_shop sample_token sample_version (drafts_request [])) =
  Ok (res_json
        (JObj [("items",
                JArr (map (fun '(id, hint) =>
                             JObj [("id", JStr id);
                                   ("createdAt", JStr "2025-07-01T10:00:00Z");
                                   ("email", JStr "buyer@example.com");
                                   ("shipping", JNull);
                                   ("totalLinesHint", lit hint)])
                          [("gid://shopify/DraftOrder/1", 3);
                           ("gid://shopify/DraftOrder/2", 0);
                           ("gid://shopify/DraftOrder/3", 3)]))])).
Proof. vm_compute. reflexivity. Qed.

(* ===================================================================== *)
(** * Further properties of the handlers *)
(* ===================================================================== *)

(** Splits on the results a handler matches on, one step of the handler at a
    time. *)
Ltac case_steps :=
  repeat (run_steps; rewrite ?shopifyGraphQL_response;
          first
            [ match goal with
              | |- context [if ?b then _ else _] => destruct b
              end
            | match goal with
              | |- context [match ?x with Ok _ => _ | Throw _ => _ end] =>
                  lazymatch x with
                  | response_of _ _ => fail
                  | match _ with Ok _ => _ | Throw _ => _ end => fail
                  | _ => destruct x
                  end
              end ]).

Lemma trace_of_throw {A} (net : Upstream) (e : Exn) :
  trace_of net (@throw A e) = [].
Proof. reflexivity. Qed.

Section Shapes.

Variables (e1 e2 e3 : JsVal) (net : Upstream) (req : Request).

(** X1. Every handler returns normally, for every request and upstream, and
    the status it sends is 200 or 500 for the listing, 200, 404 or 500 for
    the job and 200, 400 or 500 for the completion. *)
Theorem handler_status_codes (route : Route) :
  exists res,
    response_of net (handler e1 e2 e3 route req) = Ok res /\
    route_status route (status res).
Proof.
  destruct route; simpl handler; simpl route_status;
    unfold list_drafts, get_job, get_job_with, complete_draft;
    rewrite response_of_try_catch; case_steps;
    eexists; (split; [reflexivity | simpl; auto]).
Qed.

End Shapes.

(* ===================================================================== *)
(** * The upstream call of a handler *)
(* ===================================================================== *)

Lemma logs_app (t1 t2 : list Event) :
  logs (t1 ++ t2) = (logs t1 ++ logs t2)%list.
Proof.
  induction t1 as [|[r o|args] t1 IH]; simpl; rewrite ?IH; reflexivity.
Qed.

Section Calls.

Variables (e1 e2 e3 : JsVal) (net : Upstream).

(** [shopifyGraphQL] posts its request, then writes what [outcome_logs]
    says. *)
Lemma shopifyGraphQL_trace (q : string) (v : JsVal) :
  trace_of net (shopifyGraphQL e1 e2 e3 q v) =
  EvPost (graphql_request e1 e2 e3 q v) (net (graphql_request e1 e2 e3 q v))
  :: map EvLog (outcome_logs (net (graphql_request e1 e2 e3 q v))).
Proof.
  unfold trace_of, shopifyGraphQL, try_catch, bind, axios_post. simpl.
  fold (graphql_request e1 e2 e3 q v).
  destruct (net (graphql_request e1 e2 e3 q v)) as [res|err]; simpl.
  - unfold get. destruct (nullish (res_data res)); simpl; [reflexivity|].
    destruct (ToBoolean (prop (res_data res) "errors")); reflexivity.
  - destruct (exn_response err); reflexivity.
Qed.

Variable req : Request.

(** The events of a handler are those of its call of [shopifyGraphQL], if
    it makes one. *)
Lemma list_drafts_trace :
  nullish (req_query req) = false ->
  trace_of net (list_drafts e1 e2 e3 req) =
  trace_of net
    (shopifyGraphQL e1 e2 e3 LIST_DRAFTS
       (JObj [("first",
               Math_min_ (js_or (Number (prop (req_query req) "first"))
                                (lit 25)) (lit 250));
              ("query",
               JStr (buildDraftQuery (prop (req_query req) "since")
                                     (prop (req_query req) "until")))])).
Proof.
  intros Hq. unfold list_drafts, destructure. rewrite Hq.
  rewrite trace_of_try_catch.
  case_steps; simpl; rewrite ?app_nil_r; reflexivity.
Qed.

Lemma get_job_trace :
  nullish (req_params req) = false ->
  trace_of net (get_job e1 e2 e3 req) =
  trace_of net
    (shopifyGraphQL e1 e2 e3 DRAFT_FOR_PICK
       (JObj [("id",
               JStr (toGid "DraftOrder" (prop (req_params req) "draftId")))])).
Proof.
  intros Hp. unfold get_job, get_job_with, get. rewrite Hp.
  rewrite trace_of_try_catch.
  case_steps; simpl; rewrite ?app_nil_r; reflexivity.
Qed.

Lemma complete_draft_trace :
  nullish (req_body req) = false ->
  ToBoolean (prop (req_body req) "draftId") = true ->
  trace_of net (complete_draft e1 e2 e3 req) =
  trace_of net
    (shopifyGraphQL e1 e2 e3 COMPLETE_DRAFT
       (JObj [("id",
               JStr (toGid "DraftOrder" (prop (req_body req) "draftId")));
              ("paymentPending",
               match prop (req_body req) "paymentPending" with
               | JUndefined => JBool true
               | _ => prop (req_body req) "paymentPending"
               end)])).
Proof.
  intros Hb Hid. unfold complete_draft, destructure. rewrite Hb.
  rewrite trace_of_try_catch. run_steps. rewrite Hid. simpl negb. cbv iota.
  case_steps; simpl; rewrite ?app_nil_r; reflexivity.
Qed.

Lemma complete_draft_no_call :
  nullish (req_body req) = true \/
  ToBoolean (prop (req_body req) "draftId") = false ->
  trace_of net (complete_draft e1 e2 e3 req) = [].
Proof.
  unfold complete_draft, destructure.
  destruct (nullish (req_body req)); [reflexivity|].
  intros [H|H]; [discriminate|]. rewrite trace_of_try_catch. run_steps.
  rewrite H. reflexivity.
Qed.

(** The trace of a handler is empty or that of one call of
    [shopifyGraphQL] with the document of the route. *)
Lemma handler_trace (route : Route) :
  trace_of net (handler e1 e2 e3 route req) = [] \/
  exists vars,
    trace_of net (handler e1 e2 e3 route req) =
    trace_of net (shopifyGraphQL e1 e2 e3 (document route) vars).
Proof.
  destruct route; simpl handler; simpl document.
  - destruct (nullish (req_query req)) eqn:H.
    + left. unfold list_drafts, destructure. rewrite H. reflexivity.
    + right. eexists. apply list_drafts_trace. assumption.
  - destruct (nullish (req_params req)) eqn:H.
    + left. unfold get_job, get_job_with, get. rewrite H. reflexivity.
    + right. eexists. apply get_job_trace. assumption.
  - destruct (nullish (req_body req)) eqn:H.
    + left. apply complete_draft_no_call. left. assumption.
    + destruct (ToBoolean (prop (req_body req) "draftId")) eqn:Hid.
      * right. eexists. apply complete_draft_trace; assumption.
      * left. apply complete_draft_no_call. right. assumption.
Qed.


Lemma handler_call (route : Route) (rq : PostRequest) (o : AxiosOutcome) :
  In (rq, o) (calls (trace_of net (handler e1 e2 e3 route req))) ->
  exists vars,
    rq = graphql_request e1 e2 e3 (document route) vars /\ o = net rq /\
    trace_of net (handler e1 e2 e3 route req) =
    trace_of net (shopifyGraphQL e1 e2 e3 (document route) vars).
Proof.
  intros Hin.
  destruct (handler_trace route) as [H|[vars H]]; rewrite H in *.
  - contradiction.
  - rewrite shopifyGraphQL_calls in Hin.
    destruct Hin as [Heq|[]]. injection Heq as Hrq Ho. subst rq o.
    exists vars. repeat split.
Qed.

(** X3. Whatever the route and the request, an upstream call of a handler
    is the only one of the run; it goes to [GRAPHQL_URL] with the JSON
    content type, the access token and a timeout of 15000 ms, and it carries
    the GraphQL document of the route. *)
Theorem handler_request_shape (route : Route) (rq : PostRequest)
    (o : AxiosOutcome) :
  In (rq, o) (calls (trace_of net (handler e1 e2 e3 route req))) ->
  calls (trace_of net (handler e1 e2 e3 route req)) = [(rq, net rq)] /\
  post_url rq = GRAPHQL_URL e1 e3 /\
  post_headers rq = [("Content-Type", JStr "application/json");
                     ("X-Shopify-Access-Token", e2)] /\
  post_timeout rq = 15000 /\
  prop (post_body rq) "query" = JStr (document route).
Proof.
  intros Hin. destruct (handler_call route rq o Hin) as (vars & -> & -> & H).
  rewrite H, shopifyGraphQL_calls. repeat split.
Qed.

(** X14. What a run writes to the console is decided by the outcome of its
    upstream call: nothing when the call succeeds, the status and body of
    the reply when axios rejects with a response, the error message when it
    rejects without one, and the top-level [errors] followed by the message
    of the error thrown when the body has truthy [errors]. *)
Theorem handler_console (route : Route) (rq : PostRequest)
    (o : AxiosOutcome) :
  In (rq, o) (calls (trace_of net (handler e1 e2 e3 route req))) ->
  let out := logs (trace_of net (handler e1 e2 e3 route req)) in
  (forall data, upstream_data o = Some data -> out = []) /\
  (forall err response,
     o = Rejected err -> exn_response err = Some response ->
     out = [[LStr "HTTP"; LVal (lit (res_status response));
             LJson (res_data response)]]) /\
  (forall err,
     o = Rejected err -> exn_response err = None ->
     out = [[LStr "ERR"; LVal (JStr (exn_message err))]]) /\
  (forall res,
     o = Fulfilled res -> nullish (res_data res) = false ->
     ToBoolean (prop (res_data res) "errors") = true ->
     out = [[LStr "Shopify top-level errors:";
             LJson (prop (res_data res) "errors")];
            [LStr "ERR"; LVal (JStr "GraphQL errors")]]).
Proof.
  intros Hin out.
  assert (Hout : out = outcome_logs o).
  { unfold out. destruct (handler_call route rq o Hin) as (vars & -> & -> & H).
    rewrite H, shopifyGraphQL_trace. simpl.
    induction (outcome_logs _) as [|l ls IH]; simpl; [reflexivity|].
    f_equal. exact IH. }
  rewrite Hout. clear Hout out Hin. repeat split.
  - intros data Hd. destruct o as [res|err]; simpl in *; [|discriminate].
    unfold get. destruct (nullish (res_data res)); [discriminate|].
    destruct (ToBoolean (prop (res_data res) "errors"));
      [discriminate | reflexivity].
  - intros err response -> Hr. simpl. rewrite Hr. reflexivity.
  - intros err -> Hr. simpl. rewrite Hr. reflexivity.
  - intros res -> Hn Herr. simpl. unfold get. rewrite Hn, Herr. reflexivity.
Qed.

End Calls.

(** X4. The URL of an upstream call is built from the environment as it is:
    the API version is [2025-07] when [SHOPIFY_API_VERSION] is unset or
    empty, and a missing [SHOPIFY_SHOP] is not refused, it gives the host
    [undefined]. *)
Theorem upstream_url (e2 : JsVal) (route : Route) (net : Upstream)
    (req : Request) (shop version : JsVal) (rq : PostRequest)
    (o : AxiosOutcome) :
  In (rq, o) (calls (trace_of net (handler shop e2 version route req))) ->
  (forall host, shop = JStr host ->
     version = JUndefined \/ version = JStr "" ->
     post_url rq = "https://" ++ host ++ "/admin/api/2025-07/graphql.json") /\
  (forall host v, shop = JStr host -> version = JStr v -> v <> "" ->
     post_url rq = "https://" ++ host ++ "/admin/api/" ++ v ++
                   "/graphql.json") /\
  (shop = JUndefined -> version = JUndefined ->
     post_url rq = "https://undefined/admin/api/2025-07/graphql.json").
Proof.
  intros Hin.
  destruct (handler_call shop e2 version net req route rq o Hin)
    as (vars & -> & _).
  simpl post_url. unfold GRAPHQL_URL, SHOP, API_VERSION, js_or.
  split; [|split].
  - intros host -> [-> | ->]; reflexivity.
  - intros host v -> -> Hv. simpl ToBoolean.
    destruct (String.eqb_spec v ""); [contradiction | reflexivity].
  - intros -> ->. reflexivity.
Qed.

(* ===================================================================== *)
(** * Completion: guards, variables and success *)
(* ===================================================================== *)

Lemma run_pair {A} (net : Upstream) (p : Prog A) :
  run net p = (response_of net p, trace_of net p).
Proof. unfold response_of, trace_of. destruct (run net p); reflexivity. Qed.


Lemma upstream_no_data_result (o : AxiosOutcome) :
  upstream_data o = None -> exists e, graphql_result o = Throw e.
Proof.
  destruct o as [res|err]; simpl; [|eauto].
  unfold get. destruct (nullish (res_data res)); simpl; [eauto|].
  destruct (ToBoolean (prop (res_data res) "errors")); [eauto | discriminate].
Qed.

(** X5. A completion request whose [draftId] is falsy (the empty string, 0,
    [null], [false]) is answered like one without [draftId]: 400
    [{ error: 'draftId required' }], with no upstream call and no console
    output. *)
Theorem complete_falsy_draftId (e1 e2 e3 : JsVal) (net : Upstream)
    (req : Request) :
  nullish (req_body req) = false ->
  ToBoolean (prop (req_body req) "draftId") = false ->
  run net (complete_draft e1 e2 e3 req) =
  (Ok (res_status_json 400 (JObj [("error", JStr "draftId required")])), []).
Proof.
  intros Hb Hid. rewrite run_pair. f_equal.
  - unfold complete_draft, destructure. rewrite Hb.
    rewrite response_of_try_catch. run_steps. rewrite Hid. reflexivity.
  - apply complete_draft_no_call. right. assumption.
Qed.

Lemma complete_falsy_draftId_witness :
  run timing_out
    (complete_draft sample_shop sample_token sample_version
       (complete_request (JObj [("draftId", JStr "")]))) =
  (Ok (res_status_json 400 (JObj [("error", JStr "draftId required")])), []).
Proof.
  apply (complete_falsy_draftId sample_shop sample_token sample_version
           timing_out (complete_request (JObj [("draftId", JStr "")])));
    reflexivity.
Defined.

(** X6. A completion request without a parsed body ([req.body] undefined or
    null) fails inside the handler: it is answered 500
    [{ error: 'Failed to complete draft' }], not 400, with no upstream call
    and no console output. *)
Theorem complete_without_body (e1 e2 e3 : JsVal) (net : Upstream)
    (req : Request) :
  nullish (req_body req) = true ->
  run net (complete_draft e1 e2 e3 req) =
  (Ok (res_status_json 500 (JObj [("error", JStr "Failed to complete draft")])),
   []).
Proof.
  intros Hb. unfold complete_draft, destructure. rewrite Hb. reflexivity.
Qed.

Lemma complete_without_body_witness :
  run timing_out
    (complete_draft sample_shop sample_token sample_version
       (complete_request JUndefined)) =
  (Ok (res_status_json 500 (JObj [("error", JStr "Failed to complete draft")])),
   []).
Proof.
  apply (complete_without_body sample_shop sample_token sample_version
           timing_out (complete_request JUndefined)).
  reflexivity.
Defined.







(* ===================================================================== *)
(** * Replies without a payload, and calls that do not succeed *)
(* ===================================================================== *)



(** X13. Whenever the upstream call of a route does not succeed (the
    promise is rejected, the body is [null], or the body has truthy
    top-level [errors], a list or not), the handler answers 500 with the
    fixed error text of the route. *)
Theorem unsuccessful_call_gives_500 (e1 e2 e3 : JsVal) (route : Route)
    (net : Upstream) (req : Request) :
  (exists r o,
     In (r, o) (calls (trace_of net (handler e1 e2 e3 route req))) /\
     upstream_data o = None) ->
  response_of net (handler e1 e2 e3 route req) =
  Ok (res_status_json 500 (JObj [("error", JStr (generic_error route))])).
Proof.
  intros (r & o & Hin & Hnone).
  destruct (handler_calls e1 e2 e3 net req route) as [H|(r' & Hc & Hr)].
  - rewrite H in Hin. contradiction.
  - rewrite Hc in Hin. destruct Hin as [Heq|[]]. injection Heq as Hreq Hout.
    subst r' o. destruct (upstream_no_data_result _ Hnone) as [e He].
    rewrite Hr, He. reflexivity.
Qed.

Lemma unsuccessful_call_gives_500_witness :
  response_of answering_null
    (sample_handler Drafts (drafts_request [])) =
    Ok (res_status_json 500 (JObj [("error", JStr "failed to list drafts")])) /\
  response_of (fun _ => Fulfilled
                          (mkResponse 200
                             (JObj [("errors", JStr "Internal error")])))
    (sample_handler Job (job_request "7")) =
    Ok (res_status_json 500 (JObj [("error", JStr "Failed to fetch draft")])).
Proof.
  split.
  - apply (unsuccessful_call_gives_500 sample_shop sample_token sample_version
             Drafts answering_null (drafts_request [])).
    eexists; eexists; split; [left; reflexivity | reflexivity].
  - apply (unsuccessful_call_gives_500 sample_shop sample_token sample_version
             Job _ (job_request "7")).
    eexists; eexists; split; [left; reflexivity | reflexivity].
Defined.

(* ===================================================================== *)
(** * The job *)
(* ===================================================================== *)

Lemma pick_line_of (edge : JsVal) :
  has_node edge = true -> pick_line edge = Ok (PickLine edge).
Proof.
  unfold has_node, pick_line, destructure, get, PickLine.
  destruct (nullish edge); [discriminate|]. simpl.
  destruct (nullish (prop edge "node")); [discriminate|]. simpl.
  rewrite !opt_get_prop. reflexivity.
Qed.

Lemma mapM_pick_line (edges : list JsVal) :
  forallb has_node edges = true ->
  mapM pick_line edges = Ok (map PickLine edges).
Proof.
  induction edges as [|e es IH]; simpl; [reflexivity|].
  intros H. apply andb_true_iff in H as [He Hes].
  rewrite (pick_line_of e He), (IH Hes). reflexivity.
Qed.

(** A callback that throws on an element makes [map] throw. *)
Lemma mapM_throws {A B} (f : A -> Result B) (l : list A) :
  (exists x, In x l /\ exists e, f x = Throw e) ->
  exists e, mapM f l = Throw e.
Proof.
  induction l as [|a l IH]; intros (x & Hin & e & He); [contradiction|].
  simpl. destruct (f a) as [b|e'] eqn:Ha; [|simpl; eauto]. simpl.
  destruct Hin as [->|Hin]; [congruence|].
  destruct IH as [e'' He'']; [exists x; eauto|].
  rewrite He''. simpl. eauto.
Qed.

Lemma pick_line_throws (edge : JsVal) :
  has_node edge = false -> exists e, pick_line edge = Throw e.
Proof.
  unfold has_node, pick_line, destructure, get.
  destruct (nullish edge); simpl; [eauto|].
  destruct (nullish (prop edge "node")); simpl; [eauto | discriminate].
Qed.

Lemma draft_summary_throws (edge : JsVal) :
  has_node edge = false -> exists e, draft_summary edge = Throw e.
Proof.
  unfold has_node, draft_summary, destructure, get.
  destruct (nullish edge); simpl; [eauto|].
  destruct (nullish (prop edge "node")); simpl; [eauto | discriminate].
Qed.

Lemma existsb_no_node (edges : list JsVal) :
  existsb (fun e => negb (has_node e)) edges = true ->
  exists x, In x edges /\ has_node x = false.
Proof.
  intros H. apply existsb_exists in H as (x & Hin & Hx).
  exists x. split; [assumption|]. destruct (has_node x); [discriminate|].
  reflexivity.
Qed.

Section JobLines.

Variables (e1 e2 e3 : JsVal) (net : Upstream) (req : Request).

(** X10. For a draft order [d] that upstream returns with line-item edges
    that each have a node, the job is answered 200 with the id and shipping
    address of [d] and one PickLine per edge, in the order of the edges; a
    line without variant has the title ['Unknown'] and [null] for the
    variant id, SKU, barcode and thumbnail. *)
Theorem job_lines (data : JsVal) (edges : list JsVal) :
  nullish (req_params req) = false ->
  (forall r, upstream_data (net r) = Some data) ->
  let d := prop data "draftOrder" in
  ToBoolean d = true ->
  line_item_edges d = Some edges ->
  forallb has_node edges = true ->
  response_of net (get_job e1 e2 e3 req) =
    Ok (res_json (JObj [("draftId", prop d "id");
                        ("shippingAddress", prop d "shippingAddress");
                        ("lines", JArr (map PickLine edges))])) /\
  forall edge,
    nullish (prop (prop edge "node") "variant") = true ->
    PickLine edge = bare_PickLine (prop (prop edge "node") "id")
                                  (prop (prop edge "node") "quantity").
Proof.
  intros Hp Hnet d Hd Hedges Hnodes. split.
  - unfold get_job, get_job_with, get. rewrite Hp. run_steps.
    rewrite shopifyGraphQL_response, (upstream_data_result _ _ (Hnet _)).
    cbv beta iota zeta. rewrite opt_get_prop. fold d. rewrite Hd.
    simpl negb. cbv iota.
    assert (Hn : nullish d = false) by (destruct d; try discriminate; reflexivity).
    rewrite Hn. run_steps.
    assert (Harr : js_or (opt_get (prop d "lineItems") "edges") (JArr []) =
                   JArr edges).
    { unfold line_item_edges in Hedges. rewrite !opt_get_prop in *.
      destruct (prop (prop d "lineItems") "edges");
        try discriminate; injection Hedges as <-; reflexivity. }
    rewrite Harr. unfold array_map. rewrite (mapM_pick_line edges Hnodes).
    reflexivity.
  - intros edge Hv. unfold PickLine, bare_PickLine.
    destruct (prop (prop edge "node") "variant"); try discriminate;
      reflexivity.
Qed.

(** X11. One order edge or line-item edge without a node ([null] edge, or
    [node] null or absent) turns the whole answer into 500: the listing and
    the job send no partial result. *)
Theorem edge_without_node_gives_500 (data : JsVal) (edges : list JsVal) :
  (forall r, upstream_data (net r) = Some data) ->
  existsb (fun e => negb (has_node e)) edges = true ->
  (nullish (req_query req) = false ->
   prop (prop data "draftOrders") "edges" = JArr edges ->
   response_of net (list_drafts e1 e2 e3 req) =
   Ok (res_status_json 500 (JObj [("error", JStr "failed to list drafts")]))) /\
  (nullish (req_params req) = false ->
   ToBoolean (prop data "draftOrder") = true ->
   prop (prop (prop data "draftOrder") "lineItems") "edges" = JArr edges ->
   response_of net (get_job e1 e2 e3 req) =
   Ok (res_status_json 500 (JObj [("error", JStr "Failed to fetch draft")]))).
Proof.
  intros Hnet Hbad. apply existsb_no_node in Hbad as (x & Hin & Hx). split.
  - intros Hq Hedges. unfold list_drafts, destructure. rewrite Hq. run_steps.
    rewrite shopifyGraphQL_response, (upstream_data_result _ _ (Hnet _)).
    cbv beta iota. rewrite !opt_get_prop, Hedges.
    unfold js_or, array_map. simpl ToBoolean. cbv iota.
    destruct (mapM_throws draft_summary edges) as [e ->]; [|reflexivity].
    exists x. split; [assumption | apply draft_summary_throws; assumption].
  - intros Hp Hd Hedges. unfold get_job, get_job_with, get. rewrite Hp.
    run_steps.
    rewrite shopifyGraphQL_response, (upstream_data_result _ _ (Hnet _)).
    cbv beta iota zeta. rewrite opt_get_prop, Hd. simpl negb. cbv iota.
    assert (Hn : nullish (prop data "draftOrder") = false)
      by (destruct (prop data "draftOrder"); try discriminate; reflexivity).
    rewrite Hn. run_steps. rewrite opt_get_prop, Hedges.
    unfold js_or, array_map. simpl ToBoolean. cbv iota.
    destruct (mapM_throws pick_line edges) as [e ->]; [|reflexivity].
    exists x. split; [assumption | apply pick_line_throws; assumption].
Qed.

End JobLines.

Lemma job_lines_witness :
  response_of (answering sample_job)
    (get_job sample_shop sample_token sample_version (job_request "7")) =
    Ok (res_json
          (JObj [("draftId", JStr "gid://shopify/DraftOrder/7");
                 ("shippingAddress", JObj [("city", JStr "Lyon")]);
                 ("lines", JArr (map PickLine sample_job_edges))])) /\
  forall edge,
    nullish (prop (prop edge "node") "variant") = true ->
    PickLine edge = bare_PickLine (prop (prop edge "node") "id")
                                  (prop (prop edge "node") "quantity").
Proof.
  apply (job_lines sample_shop sample_token sample_version
           (answering sample_job) (job_request "7") sample_job
           sample_job_edges);
    intros; reflexivity.
Defined.

Lemma edge_without_node_gives_500_witness :
  response_of (answering sample_broken_listing)
    (list_drafts sample_shop sample_token sample_version (drafts_request [])) =
    Ok (res_status_json 500 (JObj [("error", JStr "failed to list drafts")])) /\
  response_of (answering sample_broken_job)
    (get_job sample_shop sample_token sample_version (job_request "7")) =
    Ok (res_status_json 500 (JObj [("error", JStr "Failed to fetch draft")])).
Proof.
  split.
  - apply (proj1 (edge_without_node_gives_500 sample_shop sample_token
                    sample_version (answering sample_broken_listing)
                    (drafts_request []) sample_broken_listing
                    [JObj [("node", JNull)]]
                    (fun _ => eq_refl) eq_refl));
      reflexivity.
  - apply (proj2 (edge_without_node_gives_500 sample_shop sample_token
                    sample_version (answering sample_broken_job)
                    (job_request "7") sample_broken_job
                    [sample_job_line "gid://shopify/DraftOrderLineItem/1"
                       2 JNull;
                     JObj [("node", JNull)]]
                    (fun _ => eq_refl) eq_refl));
      reflexivity.
Defined.

(* ===================================================================== *)
(** * The variables of the listing *)
(* ===================================================================== *)






Section ListingVariables.

Variables (e1 e2 e3 : JsVal) (net : Upstream) (req : Request).
Hypothesis Hquery : nullish (req_query req) = false.




End ListingVariables.




(* ===================================================================== *)
(** * Line-item edges without a quantity *)
(* ===================================================================== *)








(** The sparse sample: quantities 4, missing and 1 give the hint 5. *)
Example list_drafts_sparse_sample :
  response_of (answering sample_sparse_listing)
    (list_drafts sample_shop sample_token sample_version (drafts_request [])) =
  Ok (res_json
        (JObj [("items",
                JArr [JObj [("id", JStr "gid://shopify/DraftOrder/4");
                            ("createdAt", JUndefined);
                            ("email", JUndefined);
                            ("shipping", JUndefined);
                            ("totalLinesHint", lit 5)]])])).
Proof. vm_compute. reflexivity. Qed.

(* ===================================================================== *)
(** * Sample runs of the upstream call *)
(* ===================================================================== *)


Lemma sample_job_call :
  In (graphql_request sample_shop sample_token sample_version DRAFT_FOR_PICK
        (JObj [("id", JStr "gid://shopify/DraftOrder/7")]),
      unauthorized
        (graphql_request sample_shop sample_token sample_version
           DRAFT_FOR_PICK (JObj [("id", JStr "gid://shopify/DraftOrder/7")])))
     (calls (trace_of unauthorized (sample_handler Job (job_request "7")))).
Proof. left. reflexivity. Defined.

Lemma handler_request_shape_witness :
  let rq := graphql_request sample_shop sample_token sample_version
              DRAFT_FOR_PICK (JObj [("id", JStr "gid://shopify/DraftOrder/7")]) in
  calls (trace_of unauthorized (sample_handler Job (job_request "7"))) =
    [(rq, unauthorized rq)] /\
  post_url rq = GRAPHQL_URL sample_shop sample_version /\
  post_headers rq = [("Content-Type", JStr "application/json");
                     ("X-Shopify-Access-Token", sample_token)] /\
  post_timeout rq = 15000 /\
  prop (post_body rq) "query" = JStr (document Job).
Proof.
  exact (handler_request_shape sample_shop sample_token sample_version
           unauthorized (job_request "7") Job _ _ sample_job_call).
Defined.

Lemma handler_console_witness :
  logs (trace_of unauthorized (sample_handler Job (job_request "7"))) =
  [[LStr "HTTP"; LVal (lit 401); LJson (JStr "Unauthorized")]].
Proof.
  apply (proj1 (proj2 (handler_console sample_shop sample_token sample_version
                         unauthorized (job_request "7") Job _ _
                         sample_job_call))
           (mkExn "AxiosError" "Request failed with status code 401"
                  (Some (mkResponse 401 (JStr "Unauthorized"))))
           (mkResponse 401 (JStr "Unauthorized")));
    reflexivity.
Defined.

Lemma upstream_url_witness :
  post_url
    (graphql_request sample_shop sample_token sample_version DRAFT_FOR_PICK
       (JObj [("id", JStr "gid://shopify/DraftOrder/7")])) =
  "https://pick-demo.myshopify.com/admin/api/2025-07/graphql.json".
Proof.
  apply (proj1 (upstream_url sample_token Job unauthorized (job_request "7")
                  sample_shop sample_version _ _ sample_job_call)
           "pick-demo.myshopify.com" eq_refl).
  left. reflexivity.
Defined.
